(** * next-learn-dashboard: data access, invoice mutations and the
      authorization callback

    A shallow embedding of the request-scoped core of the dashboard:

    - [app/lib/data.ts]: the read queries ([fetchCardData],
      [fetchFilteredInvoices], [fetchInvoicesPages], [fetchInvoiceById]);
    - the server actions [createInvoice] and [updateInvoice] together with
      their Zod schema, as listed in [app/dashboard/invoices/create/page.tsx]
      and in the edit page;
    - the [authorized] callback of [auth.config.ts].

    Numbers.  A JavaScript number is an IEEE-754 binary64 value.  Money
    amounts (the form input, [amount * 100], [invoice.amount / 100]) are
    modelled bit-exactly by primitive floats.  Row counts, page numbers
    and offsets are integers far below 2^53, on which the double
    operations [+], [-] and [*] are exact; they are modelled in [Z], and
    the single quotient [count / ITEMS_PER_PAGE] that is handed to
    [Math.ceil] is taken in [Q].

    Effects.  [async] functions are functions from a [World] (tables,
    the store's failure behaviour, the clock, the revalidated paths, the
    console) to a completion and a new world. *)

From Stdlib Require Import ZArith QArith Qround Floats String Ascii List Bool Lia.
From Stdlib Require Import DecimalString DecimalN DecimalZ.
From Stdlib Require Import Sorted.
Import ListNotations.
Open Scope Z_scope.

(** * JavaScript built-ins used by the code *)
Module JS.

(** The type of JavaScript numbers that carry money amounts. *)
Definition number : Set := float.

(** ** Strings *)

(** [String.prototype.startsWith]. *)
Definition startsWith (s searchString : string) : bool :=
  String.prefix searchString s.

(** [String.prototype.split] for a one-character separator. *)
Fixpoint split (separator : ascii) (s : string) : list string :=
  match s with
  | EmptyString => [EmptyString]
  | String c rest =>
      if Ascii.eqb c separator then EmptyString :: split separator rest
      else match split separator rest with
           | piece :: pieces => String c piece :: pieces
           | [] => [String c EmptyString]
           end
  end.

(** White space and line terminators of the ASCII range. *)
Definition is_white_space (c : ascii) : bool :=
  let n := nat_of_ascii c in
  ((9 <=? n)%nat && (n <=? 13)%nat) || (n =? 32)%nat.

Fixpoint trim_start (s : string) : string :=
  match s with
  | String c rest => if is_white_space c then trim_start rest else s
  | EmptyString => EmptyString
  end.

Fixpoint trim_end (s : string) : string :=
  match s with
  | String c rest =>
      match trim_end rest with
      | EmptyString => if is_white_space c then EmptyString
                       else String c EmptyString
      | kept => String c kept
      end
  | EmptyString => EmptyString
  end.

Definition trim (s : string) : string := trim_end (trim_start s).

(** ** The conversion [Number(string)] (StringToNumber) *)

Definition digit_value (base : Z) (c : ascii) : option Z :=
  let n := Z.of_nat (nat_of_ascii c) in
  let v := if (48 <=? n) && (n <=? 57) then Some (n - 48)
           else if (97 <=? n) && (n <=? 102) then Some (n - 87)
           else if (65 <=? n) && (n <=? 70) then Some (n - 55)
           else None in
  match v with
  | Some d => if d <? base then Some d else None
  | None => None
  end.

(** Reads the longest run of digits at the head of [s]: the accumulated
    value, the number of digits read and the unread rest. *)
Fixpoint read_digits (base acc : Z) (count : nat) (s : string)
  : Z * nat * string :=
  match s with
  | String c rest =>
      match digit_value base c with
      | Some d => read_digits base (acc * base + d) (S count) rest
      | None => (acc, count, s)
      end
  | EmptyString => (acc, count, s)
  end.

(** The double nearest to [numerator / denominator] (ties to even), with
    the given sign. *)
Definition round_to_double (negative : bool) (numerator denominator : Z)
  : number :=
  match numerator, denominator with
  | Zpos n, Zpos d =>
      SF2Prim (SF64div (S754_finite negative n 0) (S754_finite false d 0))
  | _, _ => if negative then (-0)%float else 0%float
  end.

(** ExponentPart, which must reach the end of the literal. *)
Definition read_exponent (s : string) : option Z :=
  match s with
  | EmptyString => Some 0
  | String c rest =>
      if Ascii.eqb c "e" || Ascii.eqb c "E" then
        let '(negative, ds) :=
          match rest with
          | String "-" t => (true, t)
          | String "+" t => (false, t)
          | _ => (false, rest)
          end in
        match read_digits 10 0 0 ds with
        | (e, S _, EmptyString) => Some (if negative then - e else e)
        | _ => None
        end
      else None
  end.

Definition StrUnsignedDecimalLiteral (negative : bool) (s : string)
  : number :=
  if String.eqb s "Infinity"
  then (if negative then neg_infinity else infinity)
  else
    let '(int_part, n1, r1) := read_digits 10 0 0 s in
    let '(mantissa, n2, r2) :=
      match r1 with
      | String "." t => read_digits 10 int_part 0 t
      | _ => (int_part, 0%nat, r1)
      end in
    match (n1 + n2)%nat, read_exponent r2 with
    | S _, Some e =>
        let e10 := e - Z.of_nat n2 in
        if 0 <=? e10 then round_to_double negative (mantissa * 10 ^ e10) 1
        else round_to_double negative mantissa (10 ^ (- e10))
    | _, _ => nan
    end.

Definition StrDecimalLiteral (s : string) : number :=
  match s with
  | String "-" t => StrUnsignedDecimalLiteral true t
  | String "+" t => StrUnsignedDecimalLiteral false t
  | _ => StrUnsignedDecimalLiteral false s
  end.

Definition NonDecimalIntegerLiteral (base : Z) (ds : string) : number :=
  match read_digits base 0 0 ds with
  | (v, S _, EmptyString) => round_to_double false v 1
  | _ => nan
  end.

Definition StringToNumber (str : string) : number :=
  let s := trim str in
  match s with
  | EmptyString => 0%float
  | String "0" (String x t) =>
      if Ascii.eqb x "x" || Ascii.eqb x "X"
      then NonDecimalIntegerLiteral 16 t
      else if Ascii.eqb x "o" || Ascii.eqb x "O"
      then NonDecimalIntegerLiteral 8 t
      else if Ascii.eqb x "b" || Ascii.eqb x "B"
      then NonDecimalIntegerLiteral 2 t
      else StrDecimalLiteral s
  | _ => StrDecimalLiteral s
  end.

(** ** [Math.round] *)


(** The mathematical value of [x] when [x] is a finite integer. *)
Definition integer_value (x : number) : option Z :=
  match Prim2SF x with
  | S754_zero _ => Some 0
  | S754_finite s m e =>
      let v := if s then Zneg m else Zpos m in
      if 0 <=? e then Some (v * 2 ^ e)
      else if Zpos m mod 2 ^ (- e) =? 0 then Some (v / 2 ^ (- e))
      else None
  | _ => None
  end.

(** ** [Date] *)

(** A time value, by its UTC components. *)
Record Date : Set := mkDate {
  utc_year : Z;
  utc_month : Z;       (* 1 .. 12 *)
  utc_day : Z;         (* 1 .. 31 *)
  utc_hours : Z;
  utc_minutes : Z;
  utc_seconds : Z;
  utc_milliseconds : Z
}.

Definition decimal_digit (d : Z) : ascii :=
  ascii_of_nat (48 + Z.to_nat (d mod 10)).

(** The last [width] decimal digits of [n], zero padded. *)
Fixpoint padded (width : nat) (n : Z) : string :=
  match width with
  | O => EmptyString
  | S w => (padded w (n / 10) ++ String (decimal_digit n) EmptyString)%string
  end.

Definition iso_year (y : Z) : string :=
  if (0 <=? y) && (y <=? 9999) then padded 4 y
  else ((if (y <? 0)%Z then "-" else "+") ++ padded 6 (Z.abs y))%string.

Definition iso_date (d : Date) : string :=
  (iso_year (utc_year d) ++ "-" ++ padded 2 (utc_month d)
     ++ "-" ++ padded 2 (utc_day d))%string.

Definition iso_time (d : Date) : string :=
  (padded 2 (utc_hours d) ++ ":" ++ padded 2 (utc_minutes d) ++ ":"
     ++ padded 2 (utc_seconds d) ++ "." ++ padded 3 (utc_milliseconds d)
     ++ "Z")%string.

(** [Date.prototype.toISOString]. *)
Definition toISOString (d : Date) : string :=
  (iso_date d ++ "T" ++ iso_time d)%string.

End JS.

(** * Integer-valued numbers (counts, pages, offsets) *)
Module Int.

(** The decimal text of an integer, as the store prints [INTEGER] and
    [BIGINT] values. *)
Definition text_of (z : Z) : string := NilEmpty.string_of_int (Z.to_int z).

(** [Number(s)] for a text [s] made of an optional minus sign and decimal
    digits, the only texts the store prints for a count; [None] for any
    other text. *)
Definition Number (s : string) : option Z :=
  if String.eqb s "-" then None
  else option_map Z.of_int (NilEmpty.int_of_string s).

(** [Math.ceil(n / d)] for integers [n] and [d]; the quotient is exact. *)
Definition Math_ceil_div (n d : Z) : Z :=
  Qceiling (inject_Z n / inject_Z d).

End Int.

(** * The Zod schema of the invoice form *)
Module Zod.

(** A [FormData] entry value is a string or a [File]. *)
Inductive FormDataEntryValue : Set :=
| EntryString (s : string)
| EntryFile (name : string).

(** A [FormData] object: its entries in insertion order. *)
Definition FormData : Set := list (string * FormDataEntryValue).

(** [formData.get(name)]: the first value under [name]; [None] is
    [null]. *)
Fixpoint get (formData : FormData) (name : string)
  : option FormDataEntryValue :=
  match formData with
  | (key, value) :: rest =>
      if String.eqb key name then Some value else get rest name
  | [] => None
  end.

Inductive ZodIssueCode : Set := invalid_type | invalid_enum_value.

Record ZodIssue : Set := mkIssue {
  code : ZodIssueCode;
  path : list string
}.

Inductive SafeParse (A : Type) : Type :=
| Success (data : A)
| Failure (issues : list ZodIssue).
Arguments Success {A} data.
Arguments Failure {A} issues.

Definition issues_of {A : Type} (r : SafeParse A) : list ZodIssue :=
  match r with
  | Success _ => []
  | Failure issues => issues
  end.

(** [Number(value)] on what [formData.get] returns: [null] becomes 0,
    a [File] becomes the text "[object File]", which is not numeric. *)
Definition Number (value : option FormDataEntryValue) : JS.number :=
  match value with
  | None => 0%float
  | Some (EntryString s) => JS.StringToNumber s
  | Some (EntryFile _) => nan
  end.

(** [z.string()]. *)
Definition z_string (key : string) (value : option FormDataEntryValue)
  : SafeParse string :=
  match value with
  | Some (EntryString s) => Success s
  | _ => Failure [mkIssue invalid_type [key]]
  end.

(** [z.coerce.number()]: coerce with [Number], then refuse NaN. *)
Definition z_coerce_number (key : string)
  (value : option FormDataEntryValue) : SafeParse JS.number :=
  let coerced := Number value in
  if PrimFloat.is_nan coerced then Failure [mkIssue invalid_type [key]]
  else Success coerced.

(** [z.enum(options)]. *)
Definition z_enum (options : list string) (key : string)
  (value : option FormDataEntryValue) : SafeParse string :=
  match value with
  | Some (EntryString s) =>
      if existsb (String.eqb s) options then Success s
      else Failure [mkIssue invalid_enum_value [key]]
  | _ => Failure [mkIssue invalid_type [key]]
  end.

Record RawFormData : Set := mkRaw {
  raw_customerId : option FormDataEntryValue;
  raw_amount : option FormDataEntryValue;
  raw_status : option FormDataEntryValue
}.

Record InvoiceInput : Set := mkInput {
  customerId : string;
  amount : JS.number;
  status : string
}.

(** [FormSchema.omit({ id: true, date: true })]: the object schema with
    the keys [customerId: z.string()], [amount: z.coerce.number()] and
    [status: z.enum(['pending', 'paid'])].  Every key is parsed and the
    issues of all keys are gathered. *)
Definition FormSchema_omit_id_date (raw : RawFormData)
  : SafeParse InvoiceInput :=
  match z_string "customerId" (raw_customerId raw),
        z_coerce_number "amount" (raw_amount raw),
        z_enum ["pending"; "paid"]%string "status" (raw_status raw) with
  | Success c, Success a, Success s => Success (mkInput c a s)
  | rc, ra, rs => Failure (issues_of rc ++ issues_of ra ++ issues_of rs)
  end.

Definition CreateInvoice := FormSchema_omit_id_date.
Definition UpdateInvoice := FormSchema_omit_id_date.

End Zod.

(** * The relational store *)
Module Store.

Record Customer : Set := mkCustomer {
  c_id : string;
  c_name : string;
  c_email : string;
  c_image_url : string
}.

(** An [invoices] row; [i_amount] is the [INTEGER] column. *)
Record Invoice : Set := mkInvoice {
  i_id : string;
  i_customer_id : string;
  i_amount : Z;
  i_status : string;
  i_date : string
}.

Record Tables : Type := mkTables {
  customers : list Customer;
  invoices : list Invoice;
  uuid_of : nat -> string;      (* the ids the store hands out *)
  uuid_next : nat
}.

(** A nullable text cell of a result row. *)
Inductive Cell : Set := Null | Text (s : string).

(** ** [ILIKE] *)

Definition lower (c : ascii) : ascii :=
  let n := nat_of_ascii c in
  if (65 <=? n)%nat && (n <=? 90)%nat then ascii_of_nat (n + 32) else c.

(** [LIKE] matching with [%], [_] and the backslash escape (character
    92), letters compared without case. *)
Fixpoint like (pattern text : list ascii) {struct pattern} : bool :=
  match pattern with
  | [] => match text with [] => true | _ :: _ => false end
  | c :: p =>
      if Ascii.eqb c "%" then
        (fix any (t : list ascii) : bool :=
           like p t || match t with [] => false | _ :: t' => any t' end) text
      else if Ascii.eqb c "_" then
        match text with _ :: t => like p t | [] => false end
      else if Ascii.eqb c "092" then
        match p, text with
        | escaped :: p', x :: t =>
            Ascii.eqb (lower escaped) (lower x) && like p' t
        | [], x :: t => Ascii.eqb c x && like p t
        | _, [] => false
        end
      else
        match text with
        | x :: t => Ascii.eqb (lower c) (lower x) && like p t
        | [] => false
        end
  end.

Definition ILIKE (text pattern : string) : bool :=
  like (list_ascii_of_string pattern) (list_ascii_of_string text).

(** ** Result rows *)

(** A row of [invoices JOIN customers], as selected by the invoice
    table query; [it_amount] is in integer cents. *)
Record InvoicesTable : Set := mkInvoicesTable {
  it_id : string;
  it_amount : Z;
  it_date : string;
  it_status : string;
  it_name : string;
  it_email : string;
  it_image_url : string
}.

(** A row of the by-id query; the driver delivers the [INTEGER] amount
    as a number. *)
Record InvoiceForm : Set := mkInvoiceForm {
  if_id : string;
  if_customer_id : string;
  if_amount : JS.number;
  if_status : string
}.

Record CountRow : Set := mkCount { count : Cell }.

Record StatusRow : Set := mkStatus { paid : Cell; pending : Cell }.

(** ** Statements *)

(** The parameterised statements the code sends, with their bound
    values. *)
Inductive Statement : Set :=
| Count_invoices
| Count_customers
| Sum_invoices_by_status
| Select_filtered_invoices (pattern : string) (limit offset : Z)
| Count_filtered_invoices (pattern : string)
| Select_invoice_by_id (id : string)
| Insert_invoice (customer_id : string) (amount : JS.number)
                 (status date : string)
| Update_invoice (customer_id : string) (amount : JS.number)
                 (status id : string)
| Delete_invoice (id : string).

Definition row_type (s : Statement) : Set :=
  match s with
  | Count_invoices | Count_customers | Count_filtered_invoices _ => CountRow
  | Sum_invoices_by_status => StatusRow
  | Select_filtered_invoices _ _ _ => InvoicesTable
  | Select_invoice_by_id _ => InvoiceForm
  | Insert_invoice _ _ _ _ | Update_invoice _ _ _ _ | Delete_invoice _ =>
      unit
  end.

(** [invoices JOIN customers ON invoices.customer_id = customers.id]. *)
Definition joined (t : Tables) : list InvoicesTable :=
  flat_map
    (fun i =>
       map (fun c => mkInvoicesTable (i_id i) (i_amount i) (i_date i)
                       (i_status i) (c_name c) (c_email c) (c_image_url c))
           (filter (fun c => String.eqb (i_customer_id i) (c_id c))
                   (customers t)))
    (invoices t).

(** The [WHERE] clause shared by the invoice table query and its count. *)
Definition invoice_matches (pattern : string) (r : InvoicesTable) : bool :=
  ILIKE (it_name r) pattern
  || ILIKE (it_email r) pattern
  || ILIKE (Int.text_of (it_amount r)) pattern
  || ILIKE (it_date r) pattern
  || ILIKE (it_status r) pattern.

(** [ORDER BY invoices.date DESC]; rows of one date keep their order. *)
Fixpoint insert_by_date (r : InvoicesTable) (sorted : list InvoicesTable)
  : list InvoicesTable :=
  match sorted with
  | [] => [r]
  | x :: rest =>
      if String.leb (it_date x) (it_date r) then r :: sorted
      else x :: insert_by_date r rest
  end.

Definition order_by_date_desc (rows : list InvoicesTable)
  : list InvoicesTable :=
  fold_right insert_by_date [] rows.

(** [SUM(CASE WHEN status = wanted THEN amount ELSE 0 END)]: null over
    no rows. *)
Definition sum_where_status (wanted : string) (rows : list Invoice) : Cell :=
  match rows with
  | [] => Null
  | _ :: _ =>
      Text (Int.text_of
              (fold_right
                 (fun i acc =>
                    (if String.eqb (i_status i) wanted then i_amount i else 0)
                    + acc)
                 0 rows))
  end.

(** The value an [INTEGER] column takes from a bound number: the text
    of the number must read as an integer of 32 bits. *)
Definition int4_of_number (x : JS.number) : option Z :=
  match JS.integer_value x with
  | Some z => if (- 2 ^ 31 <=? z) && (z <? 2 ^ 31) then Some z else None
  | None => None
  end.

(** The number the driver builds from an [INTEGER] cell. *)
Definition number_of_int4 (z : Z) : JS.number :=
  JS.round_to_double (z <? 0) (Z.abs z) 1.

(** Runs a statement: the rows it returns and the tables afterwards, or
    [None] when the store raises an error. *)
Definition exec (s : Statement) (t : Tables)
  : option (list (row_type s) * Tables) :=
  match s as s0 return option (list (row_type s0) * Tables) with
  | Count_invoices =>
      Some ([mkCount (Text (Int.text_of (Z.of_nat (length (invoices t)))))],
            t)
  | Count_customers =>
      Some ([mkCount (Text (Int.text_of (Z.of_nat (length (customers t)))))],
            t)
  | Sum_invoices_by_status =>
      Some ([mkStatus (sum_where_status "paid" (invoices t))
                      (sum_where_status "pending" (invoices t))], t)
  | Select_filtered_invoices pattern limit offset =>
      if (limit <? 0) || (offset <? 0) then None
      else Some (firstn (Z.to_nat limit)
                   (skipn (Z.to_nat offset)
                      (order_by_date_desc
                         (filter (invoice_matches pattern) (joined t)))), t)
  | Count_filtered_invoices pattern =>
      Some ([mkCount
               (Text (Int.text_of
                        (Z.of_nat
                           (length (filter (invoice_matches pattern)
                                      (joined t))))))], t)
  | Select_invoice_by_id id =>
      Some (map (fun i => mkInvoiceForm (i_id i) (i_customer_id i)
                            (number_of_int4 (i_amount i)) (i_status i))
              (filter (fun i => String.eqb (i_id i) id) (invoices t)), t)
  | Insert_invoice customer_id amount status date =>
      match int4_of_number amount with
      | Some cents =>
          Some ([], mkTables (customers t)
                      (invoices t ++
                         [mkInvoice (uuid_of t (uuid_next t)) customer_id
                                    cents status date])
                      (uuid_of t) (S (uuid_next t)))
      | None => None
      end
  | Update_invoice customer_id amount status id =>
      match int4_of_number amount with
      | Some cents =>
          Some ([], mkTables (customers t)
                      (map (fun i =>
                              if String.eqb (i_id i) id
                              then mkInvoice (i_id i) customer_id cents
                                             status (i_date i)
                              else i)
                           (invoices t))
                      (uuid_of t) (uuid_next t))
      | None => None
      end
  | Delete_invoice id =>
      Some ([], mkTables (customers t)
                  (filter (fun i => negb (String.eqb (i_id i) id))
                          (invoices t))
                  (uuid_of t) (uuid_next t))
  end.

End Store.

(** * Asynchronous functions as state transformers *)
Module Runtime.

(** What a [throw] carries. *)
Inductive Exn : Set :=
| ZodError (issues : list Zod.ZodIssue)
| DatabaseError (failed : Store.Statement)
| TypeError
| Error (message : string).

(** Everything a server function can read or change. *)
Record World : Type := mkWorld {
  tables : Store.Tables;
  rejects : Store.Statement -> bool;   (* statements the store fails on *)
  now : JS.Date;                       (* what [new Date()] yields *)
  revalidated : list string;           (* paths given to revalidatePath *)
  console : list (string * Exn)        (* console.error lines *)
}.

(** How a call ends: a value, an exception, or the navigation that
    [redirect] starts. *)
Inductive Completion (A : Type) : Type :=
| Returned (value : A)
| Threw (e : Exn)
| Redirected (target : string).
Arguments Returned {A} value.
Arguments Threw {A} e.
Arguments Redirected {A} target.

Definition M (A : Type) : Type := World -> Completion A * World.

Definition ret {A : Type} (a : A) : M A := fun w => (Returned a, w).

Definition bind {A B : Type} (m : M A) (k : A -> M B) : M B :=
  fun w =>
    match m w with
    | (Returned a, w') => k a w'
    | (Threw e, w') => (Threw e, w')
    | (Redirected target, w') => (Redirected target, w')
    end.

Definition throw {A : Type} (e : Exn) : M A := fun w => (Threw e, w).

(** [try { body } catch (error) { handler }]; no [redirect] is called
    inside a [try] block of this code base. *)
Definition try_catch {A : Type} (body : M A) (handler : Exn -> M A) : M A :=
  fun w =>
    match body w with
    | (Threw e, w') => handler e w'
    | other => other
    end.

Declare Scope js_scope.
Delimit Scope js_scope with js.
Notation "x <- m ;; k" := (bind m (fun x => k))
  (at level 61, m at next level, right associativity) : js_scope.
Notation "m ;; k" := (bind m (fun _ => k))
  (at level 61, right associativity) : js_scope.

(** [await sql`...`]: the promise rejects when the store fails. *)
Definition sql (s : Store.Statement) : M (list (Store.row_type s)) :=
  fun w =>
    if rejects w s then (Threw (DatabaseError s), w)
    else
      match Store.exec s (tables w) with
      | Some (rows, t') =>
          (Returned rows,
           mkWorld t' (rejects w) (now w) (revalidated w) (console w))
      | None => (Threw (DatabaseError s), w)
      end.

(** [new Date()]. *)
Definition new_Date : M JS.Date := fun w => (Returned (now w), w).

(** [console.error(label, error)]. *)
Definition console_error (label : string) (error : Exn) : M unit :=
  fun w =>
    (Returned tt,
     mkWorld (tables w) (rejects w) (now w) (revalidated w)
             (console w ++ [(label, error)])).

(** [revalidatePath(path)]. *)
Definition revalidatePath (path : string) : M unit :=
  fun w =>
    (Returned tt,
     mkWorld (tables w) (rejects w) (now w) (revalidated w ++ [path])
             (console w)).

(** [redirect(path)] never returns to its caller. *)
Definition redirect {A : Type} (path : string) : M A :=
  fun w => (Redirected path, w).

(** [unstable_noStore()] only opts out of static rendering. *)
Definition noStore : M unit := ret tt.

(** [rows[0]] followed by a property read: a [TypeError] when there is
    no first row. *)
Definition first_row {A : Type} (rows : list A) : M A :=
  match rows with
  | r :: _ => ret r
  | [] => throw TypeError
  end.

(** [a ?? b] for a nullable text [a]. *)
Definition nullish (a : Store.Cell) (b : string) : string :=
  match a with
  | Store.Null => b
  | Store.Text s => s
  end.

(** The store fails on [s] in world [w]. *)
Definition store_fails (w : World) (s : Store.Statement) : Prop :=
  rejects w s = true \/ Store.exec s (tables w) = None.

End Runtime.

(** * app/lib/data.ts *)
Module Data.
Import Runtime.
Local Open Scope js_scope.
Local Open Scope string_scope.

Definition ITEMS_PER_PAGE : Z := 6.

(** The [ILIKE] operand built by the template [`%${query}%`]. *)
Definition contains_pattern (query : string) : string :=
  "%" ++ query ++ "%".

Definition fetchFilteredInvoices (query : string) (currentPage : Z)
  : M (list Store.InvoicesTable) :=
  noStore ;;
  let offset := ((currentPage - 1) * ITEMS_PER_PAGE)%Z in
  try_catch
    (invoices <- sql (Store.Select_filtered_invoices
                        (contains_pattern query) ITEMS_PER_PAGE offset) ;;
     ret invoices)
    (fun error =>
       console_error "Database Error:" error ;;
       throw (Error "Failed to fetch invoices.")).

(** The result is [None] when [Number] does not read the count as an
    integer (the page count is then NaN). *)
Definition fetchInvoicesPages (query : string) : M (option Z) :=
  noStore ;;
  try_catch
    (count <- sql (Store.Count_filtered_invoices
                     (contains_pattern query)) ;;
     row <- first_row count ;;
     let totalPages :=
       option_map (fun n => Int.Math_ceil_div n ITEMS_PER_PAGE)
                  (match Store.count row with
                   | Store.Null => Some 0%Z
                   | Store.Text s => Int.Number s
                   end) in
     ret totalPages)
    (fun error =>
       console_error "Database Error:" error ;;
       throw (Error "Failed to fetch total number of invoices.")).

(** [undefined] is [None]. *)
Definition fetchInvoiceById (id : string) : M (option Store.InvoiceForm) :=
  noStore ;;
  try_catch
    (data <- sql (Store.Select_invoice_by_id id) ;;
     let invoice :=
       map (fun invoice =>
              Store.mkInvoiceForm
                (Store.if_id invoice) (Store.if_customer_id invoice)
                (* Convert amount from cents to dollars *)
                (Store.if_amount invoice / 100)%float
                (Store.if_status invoice))
           data in
     ret (nth_error invoice 0))
    (fun error =>
       console_error "Database Error:" error ;;
       ret None).

Record CardData : Set := mkCardData {
  numberOfCustomers : option Z;
  numberOfInvoices : option Z;
  totalPaidInvoices : string;
  totalPendingInvoices : string
}.

Section WithFormatter.

(** [formatCurrency] of [app/lib/utils.ts], which is not part of the
    sources at hand. *)
Variable formatCurrency : string -> string.

Definition fetchCardData : M CardData :=
  noStore ;;
  try_catch
    ((* the three queries are started together and awaited with
        Promise.all; none of them writes *)
     data0 <- sql Store.Count_invoices ;;
     data1 <- sql Store.Count_customers ;;
     data2 <- sql Store.Sum_invoices_by_status ;;
     row0 <- first_row data0 ;;
     let numberOfInvoices := Int.Number (nullish (Store.count row0) "0") in
     row1 <- first_row data1 ;;
     let numberOfCustomers := Int.Number (nullish (Store.count row1) "0") in
     row2 <- first_row data2 ;;
     let totalPaidInvoices :=
       formatCurrency (nullish (Store.paid row2) "0") in
     let totalPendingInvoices :=
       formatCurrency (nullish (Store.pending row2) "0") in
     ret (mkCardData numberOfCustomers numberOfInvoices
                     totalPaidInvoices totalPendingInvoices))
    (fun error =>
       console_error "Database Error:" error ;;
       throw (Error "Failed to card data.")).

End WithFormatter.

End Data.

(** * The server actions *)
Module Actions.
Import Runtime.
Local Open Scope js_scope.
Local Open Scope string_scope.

(** [Schema.parse(raw)]: the parsed object, or a thrown [ZodError]. *)
Definition parse {A : Type} (r : Zod.SafeParse A) : M A :=
  match r with
  | Zod.Success data => ret data
  | Zod.Failure issues => throw (ZodError issues)
  end.

Definition rawFormData (formData : Zod.FormData) : Zod.RawFormData :=
  Zod.mkRaw (Zod.get formData "customerId")
            (Zod.get formData "amount")
            (Zod.get formData "status").

(** [new Date().toISOString().split('T')[0]]; [split] returns at least
    one piece. *)
Definition today (d : JS.Date) : string :=
  hd EmptyString (JS.split "T" (JS.toISOString d)).

Definition createInvoice (formData : Zod.FormData) : M unit :=
  input <- parse (Zod.CreateInvoice (rawFormData formData)) ;;
  let amountInCents := (Zod.amount input * 100)%float in
  d <- new_Date ;;
  let date := today d in
  sql (Store.Insert_invoice (Zod.customerId input) amountInCents
                            (Zod.status input) date) ;;
  revalidatePath "/dashboard/invoices" ;;
  redirect "/dashboard/invoices".

Definition updateInvoice (id : string) (formData : Zod.FormData) : M unit :=
  input <- parse (Zod.UpdateInvoice (rawFormData formData)) ;;
  let amountInCents := (Zod.amount input * 100)%float in
  sql (Store.Update_invoice (Zod.customerId input) amountInCents
                            (Zod.status input) id) ;;
  revalidatePath "/dashboard/invoices" ;;
  redirect "/dashboard/invoices".

(** Modelled from the spec: [deleteInvoice] is not among the sources at
    hand.  The specification gives it a single [DELETE] by id followed
    by the invalidation of the invoice list, without a redirect, and
    has a store failure end the pipeline before the invalidation. *)
Definition deleteInvoice (id : string) : M unit :=
  sql (Store.Delete_invoice id) ;;
  revalidatePath "/dashboard/invoices".

End Actions.

(** * auth.config.ts *)
Module Auth.
Local Open Scope string_scope.

Record User : Set := mkUser { user_email : string }.

(** [auth]: the session, or [None] for [null]; its [user] may be
    missing. *)
Record Session : Set := mkSession { user : option User }.

Record URL : Set := mkURL { origin : string; pathname : string }.

(** What the callback returns: a boolean or a redirect response. *)
Inductive Authorized : Set :=
| ReturnTrue
| ReturnFalse
| ReturnRedirect (location : URL).

(** [pages.signIn]. *)
Definition signIn : string := "/login".

(** [!!auth?.user]. *)
Definition isLoggedIn (auth : option Session) : bool :=
  match auth with
  | Some session =>
      match user session with Some _ => true | None => false end
  | None => false
  end.

(** [new URL(path, base)] for an absolute path: the origin of [base]
    with the new path. *)
Definition new_URL (path : string) (base : URL) : URL :=
  mkURL (origin base) path.

Definition authorized (auth : option Session) (nextUrl : URL) : Authorized :=
  let isLoggedIn := isLoggedIn auth in
  let isOnDashboard := JS.startsWith (pathname nextUrl) "/dashboard" in
  if isOnDashboard then
    if isLoggedIn then ReturnTrue
    else ReturnFalse (* Redirect unauthenticated users to login page *)
  else if isLoggedIn then ReturnRedirect (new_URL "/dashboard" nextUrl)
  else ReturnTrue.

(** The three outcomes of the gate. *)
Inductive Decision : Set :=
| Allow
| DenyRedirect (loginPath : string)
| RedirectAway (homePath : string).

(** How the middleware acts on the callback's result: [false] sends the
    visitor to the sign-in page. *)
Definition decision (r : Authorized) : Decision :=
  match r with
  | ReturnTrue => Allow
  | ReturnFalse => DenyRedirect signIn
  | ReturnRedirect location => RedirectAway (pathname location)
  end.

(** The decision table as the specification words it, for a given
    reading [isPublic] of "the path is public". *)
Definition spec_decision_table (isPublic : string -> bool)
  (sessionPresent : bool) (requestedPath : string) : Decision :=
  if JS.startsWith requestedPath "/dashboard" then
    if sessionPresent then Allow else DenyRedirect "/login"
  else if isPublic requestedPath then
    if sessionPresent then RedirectAway "/dashboard" else Allow
  else Allow.

(** The pages meant for visitors without a session: the landing page
    and the login page. *)
Definition is_public_page (p : string) : bool :=
  String.eqb p "/" || String.eqb p signIn.

End Auth.

(** * Sample data for the worked examples *)
Module Sample.
Local Open Scope string_scope.

Definition session : option Auth.Session :=
  Some (Auth.mkSession (Some (Auth.mkUser "user@nextmail.com"))).

Definition url (path : string) : Auth.URL :=
  Auth.mkURL "http://localhost:3000" path.

(** Two customers and one invoice of each. *)
Definition delba : string := "3958dc9e-712f-4377-85e9-fec4b6a6442a".
Definition lee : string := "3958dc9e-742f-4377-85e9-fec4b6a6442a".
Definition invoice_1 : string := "11111111-1111-4111-8111-111111111111".
Definition invoice_2 : string := "22222222-2222-4222-8222-222222222222".

(** The ids the sample store hands out. *)
Definition uuid_of (n : nat) : string :=
  "00000000-0000-4000-8000-" ++ JS.padded 12 (Z.of_nat n).

Definition new_invoice : string := "00000000-0000-4000-8000-000000000000".

Definition tables : Store.Tables :=
  Store.mkTables
    [Store.mkCustomer delba "Delba de Oliveira" "delba@oliveira.com"
                      "/customers/delba-de-oliveira.png";
     Store.mkCustomer lee "Lee Robinson" "lee@robinson.com"
                      "/customers/lee-robinson.png"]
    [Store.mkInvoice invoice_1 delba 1999 "paid" "2024-01-05";
     Store.mkInvoice invoice_2 lee 2500 "pending" "2024-02-01"]
    uuid_of 0.

Definition empty_tables : Store.Tables := Store.mkTables [] [] uuid_of 0.

Definition clock : JS.Date := JS.mkDate 2024 3 7 23 59 59 999.

(** A world whose store answers every statement. *)
Definition world : Runtime.World :=
  Runtime.mkWorld tables (fun _ => false) clock [] [].

Definition empty_world : Runtime.World :=
  Runtime.mkWorld empty_tables (fun _ => false) clock [] [].

(** A world whose store fails on every statement. *)
Definition broken_world : Runtime.World :=
  Runtime.mkWorld tables (fun _ => true) clock [] [].

(** The invoice form, filled in. *)
Definition form (customerId amount status : string) : Zod.FormData :=
  [("customerId", Zod.EntryString customerId);
   ("amount", Zod.EntryString amount);
   ("status", Zod.EntryString status)].

Definition usd (amount : string) : string := "$" ++ amount.

End Sample.

(** * app/dashboard/invoices/page.tsx and the search box *)
Module InvoicesPage.
Import Runtime.
Local Open Scope js_scope.
Local Open Scope string_scope.




(** [Number(value)] for an optional string: [undefined] gives NaN. *)
Definition Number (value : option string) : JS.number :=
  match value with
  | Some s => JS.StringToNumber s
  | None => nan
  end.





(** ** [URLSearchParams] *)

(** The name-value pairs in order. *)
Definition URLSearchParams : Set := list (string * string).

(** [params.get(name)]: the first value under [name]. *)
Fixpoint get (params : URLSearchParams) (name : string) : option string :=
  match params with
  | (key, value) :: rest =>
      if String.eqb key name then Some value else get rest name
  | [] => None
  end.

(** [params.delete(name)] removes every pair under [name]. *)
Definition delete (params : URLSearchParams) (name : string)
  : URLSearchParams :=
  filter (fun pair => negb (String.eqb (fst pair) name)) params.

(** [params.set(name, value)]: the first pair under [name] takes the
    value and the other pairs under [name] are removed; without such a
    pair, a new one is appended. *)
Fixpoint set (params : URLSearchParams) (name value : string)
  : URLSearchParams :=
  match params with
  | (key, old) :: rest =>
      if String.eqb key name then (name, value) :: delete rest name
      else (key, old) :: set rest name value
  | [] => [(name, value)]
  end.

Definition hex_digit (n : nat) : ascii :=
  if (n <? 10)%nat then ascii_of_nat (48 + n) else ascii_of_nat (55 + n).

(** The form-urlencoded image of one byte. *)
Definition encode_byte (c : ascii) : string :=
  let n := nat_of_ascii c in
  if ((48 <=? n) && (n <=? 57) || (65 <=? n) && (n <=? 90)
      || (97 <=? n) && (n <=? 122))%nat
     || Ascii.eqb c "*" || Ascii.eqb c "-" || Ascii.eqb c "."
     || Ascii.eqb c "_"
  then String c EmptyString
  else if Ascii.eqb c " " then "+"
  else String "%" (String (hex_digit (n / 16))
                     (String (hex_digit (n mod 16)) EmptyString)).

Fixpoint encode (s : string) : string :=
  match s with
  | String c rest => encode_byte c ++ encode rest
  | EmptyString => EmptyString
  end.

(** [params.toString()]. *)
Fixpoint toString (params : URLSearchParams) : string :=
  match params with
  | [] => EmptyString
  | [(key, value)] => encode key ++ "=" ++ encode value
  | (key, value) :: rest =>
      encode key ++ "=" ++ encode value ++ "&" ++ toString rest
  end.

(** The body of [handleSearch] in the search box (the callback that
    the debounce wrapper runs): the URL it gives to [replace]. *)
Definition handleSearch (searchParams : URLSearchParams)
  (pathname term : string) : string :=
  let params := searchParams in
  let params := set params "page" "1" in
  let params :=
    if String.eqb term "" then delete params "query"
    else set params "query" term in
  pathname ++ "?" ++ toString params.

End InvoicesPage.

(** * app/ui/dashboard/nav-links.tsx *)
Module NavLinks.
Local Open Scope string_scope.

(** An entry of the side navigation (its icon is left out). *)
Record Link : Set := mkLink { name : string; href : string }.

Definition links : list Link :=
  [mkLink "Home" "/dashboard";
   mkLink "Invoices" "/dashboard/invoices";
   mkLink "Customers" "/dashboard/customers"].

(** A rendered [<Link>]: its key, its target and whether it carries the
    classes of the active link. *)
Record Rendered : Set := mkRendered {
  key : string;
  target : string;
  highlighted : bool
}.

Definition NavLinks (pathname : string) : list Rendered :=
  map (fun link =>
         mkRendered (name link) (href link)
                    (String.eqb pathname (href link)))
      links.

End NavLinks.

(** * The customer list and the invoice forms' pages *)
Module Customers.
Import Runtime.
Local Open Scope js_scope.
Local Open Scope string_scope.

(** A row of [SELECT id, name FROM customers]. *)
Record CustomerField : Set := mkCustomerField {
  cf_id : string;
  cf_name : string
}.

(** [ORDER BY name ASC]; rows of one name keep their order. *)
Fixpoint insert_by_name (r : CustomerField) (sorted : list CustomerField)
  : list CustomerField :=
  match sorted with
  | [] => [r]
  | x :: rest =>
      if String.leb (cf_name r) (cf_name x) then r :: sorted
      else x :: insert_by_name r rest
  end.

Definition order_by_name (rows : list CustomerField) : list CustomerField :=
  fold_right insert_by_name [] rows.

(** The rows of the customer list query. *)
Definition select_customers (t : Store.Tables) : list CustomerField :=
  order_by_name
    (map (fun c => mkCustomerField (Store.c_id c) (Store.c_name c))
         (Store.customers t)).

(** A breadcrumb; a missing [active] is [false]. *)
Record Breadcrumb : Set := mkBreadcrumb {
  label : string;
  crumb_href : string;
  active : bool
}.

(** What the edit page hands to [<Breadcrumbs>] and [<Form>]. *)
Record EditView : Set := mkEditView {
  edit_breadcrumbs : list Breadcrumb;
  form_invoice : Store.InvoiceForm;
  form_customers : list CustomerField
}.

(** What the create page hands to [<Breadcrumbs>] and [<Form>]. *)
Record CreateView : Set := mkCreateView {
  create_breadcrumbs : list Breadcrumb;
  create_customers : list CustomerField
}.

(** [notFound()] throws the error that the framework answers with the
    not-found page. *)
Definition notFound {A : Type} : M A := throw (Error "NEXT_NOT_FOUND").

Section WithStore.

(** Whether the store fails on the customer list query, and with which
    message. *)
Variable customers_failure : option string.

(** [await sql`SELECT id, name FROM customers ORDER BY name ASC`]. *)
Definition sql_customers : M (list CustomerField) :=
  fun w =>
    match customers_failure with
    | Some message => (Threw (Error message), w)
    | None => (Returned (select_customers (tables w)), w)
    end.

Definition fetchCustomers : M (list CustomerField) :=
  try_catch
    (data <- sql_customers ;;
     let customers := data in
     ret customers)
    (fun err =>
       console_error "Database Error:" err ;;
       throw (Error "Failed to fetch all customers.")).

(** The page of [invoices/[id]/edit]; the two fetches of [Promise.all]
    are both made, and a rejection of either rejects the page. *)
Definition EditPage (id : string) : M EditView :=
  invoice <- Data.fetchInvoiceById id ;;
  customers <- fetchCustomers ;;
  match invoice with
  | None => notFound
  | Some invoice =>
      ret (mkEditView
             [mkBreadcrumb "Invoices" "/dashboard/invoices" false;
              mkBreadcrumb "Edit Invoice"
                ("/dashboard/invoices/" ++ id ++ "/edit") true]
             invoice customers)
  end.

(** The page of [invoices/create]. *)
Definition CreatePage : M CreateView :=
  customers <- fetchCustomers ;;
  ret (mkCreateView
         [mkBreadcrumb "Invoices" "/dashboard/invoices" false;
          mkBreadcrumb "Create Invoice" "/dashboard/invoices/create" true]
         customers).

End WithStore.

End Customers.

(** * Notions used in the statements *)

Import Runtime.
Local Open Scope string_scope.

(** [s] has no occurrence of the character [c]. *)
Fixpoint lacks (c : ascii) (s : string) : Prop :=
  match s with
  | EmptyString => True
  | String x rest => x <> c /\ lacks c rest
  end.

(** The [INSERT] that [createInvoice] sends for a parsed form. *)
Definition insert_of (input : Zod.InvoiceInput) (w : World)
  : Store.Statement :=
  Store.Insert_invoice (Zod.customerId input) (Zod.amount input * 100)%float
                       (Zod.status input) (Actions.today (now w)).

(** The [UPDATE] that [updateInvoice] sends for a parsed form. *)
Definition update_of (id : string) (input : Zod.InvoiceInput)
  : Store.Statement :=
  Store.Update_invoice (Zod.customerId input) (Zod.amount input * 100)%float
                       (Zod.status input) id.

(** The pipeline stopped with an exception, having neither invalidated
    a path nor written a row, and without a redirect. *)
Definition aborted (w : World) (r : Completion unit * World) : Prop :=
  (exists e, fst r = Threw e)
  /\ revalidated (snd r) = revalidated w
  /\ tables (snd r) = tables w.


(** The row of the edit form that [fetchInvoiceById] builds from an
    [invoices] row: the amount divided by 100. *)
Definition edit_form (i : Store.Invoice) : Store.InvoiceForm :=
  Store.mkInvoiceForm (Store.i_id i) (Store.i_customer_id i)
    (Store.number_of_int4 (Store.i_amount i) / 100)%float (Store.i_status i).




(** A call left the tables, the invalidated paths and the clock as
    they were. *)
Definition read_only {A : Type} (w : World) (r : Completion A * World)
  : Prop :=
  tables (snd r) = tables w
  /\ revalidated (snd r) = revalidated w
  /\ now (snd r) = now w.







(** * Properties *)

(** ** String facts *)

Lemma prefix_iff_append (p s : string) :
  String.prefix p s = true <-> exists rest, s = p ++ rest.
Proof.
  revert s; induction p as [|c p IH]; intros s.
  - destruct s; simpl; split; eauto.
  - destruct s as [|d s]; simpl.
    + split; [discriminate | intros [rest H]; discriminate].
    + destruct (ascii_dec c d) as [->|Hcd].
      * rewrite IH. split; intros [rest H]; exists rest.
        -- now rewrite H.
        -- now injection H.
      * split; [discriminate | intros [rest H]; injection H; congruence].
Qed.

Lemma startsWith_iff (s p : string) :
  JS.startsWith s p = true <-> exists rest, s = p ++ rest.
Proof. apply prefix_iff_append. Qed.

Lemma startsWith_false_iff (s p : string) :
  JS.startsWith s p = false <-> forall rest, s <> p ++ rest.
Proof.
  split.
  - intros H rest E.
    assert (JS.startsWith s p = true) by (apply startsWith_iff; eauto).
    congruence.
  - intros H. destruct (JS.startsWith s p) eqn:E; [|reflexivity].
    apply startsWith_iff in E. destruct E as [rest E]. now apply H in E.
Qed.

(** ** The authorization callback *)

(** Whatever is taken as public, a path that is neither under
    "/dashboard" nor public separates [authorized] from the decision
    table as soon as a session is present. *)
Lemma authorized_redirects_unlisted_path
  (isPublic : string -> bool) (auth : option Auth.Session)
  (nextUrl : Auth.URL) :
  JS.startsWith (Auth.pathname nextUrl) "/dashboard" = false ->
  isPublic (Auth.pathname nextUrl) = false ->
  Auth.isLoggedIn auth = true ->
  Auth.decision (Auth.authorized auth nextUrl)
  = Auth.RedirectAway "/dashboard"
  /\ Auth.spec_decision_table isPublic (Auth.isLoggedIn auth)
       (Auth.pathname nextUrl) = Auth.Allow.
Proof.
  intros Hp Hq Hs.
  unfold Auth.authorized, Auth.spec_decision_table.
  rewrite Hp, Hq, Hs. split; reflexivity.
Qed.

(** C1, as the specification states it, is refuted: with the landing
    page and the login page as the public pages, a signed-in request
    for the path "/customers" (neither under "/dashboard" nor public)
    is redirected to "/dashboard" by [authorized], where the decision
    table answers Allow. *)
Lemma authorized_differs_from_decision_table :
  ~ (forall auth nextUrl,
        Auth.decision (Auth.authorized auth nextUrl)
        = Auth.spec_decision_table Auth.is_public_page
            (Auth.isLoggedIn auth) (Auth.pathname nextUrl)).
Proof.
  intros H.
  specialize (H Sample.session (Sample.url "/customers")).
  vm_compute in H. discriminate H.
Qed.

(** C1, amended: for every reading [isPublic] of "public path",
    [authorized] returns the result of the decision table whenever the
    path is under "/dashboard", or is public, or there is no session;
    and with a session every path outside "/dashboard", public or not,
    is answered RedirectAway("/dashboard"). *)
Theorem authorized_decision_table
  (isPublic : string -> bool) (auth : option Auth.Session)
  (nextUrl : Auth.URL) :
  (JS.startsWith (Auth.pathname nextUrl) "/dashboard" = true
   \/ isPublic (Auth.pathname nextUrl) = true
   \/ Auth.isLoggedIn auth = false ->
   Auth.decision (Auth.authorized auth nextUrl)
   = Auth.spec_decision_table isPublic (Auth.isLoggedIn auth)
       (Auth.pathname nextUrl))
  /\ (JS.startsWith (Auth.pathname nextUrl) "/dashboard" = false ->
      Auth.isLoggedIn auth = true ->
      Auth.decision (Auth.authorized auth nextUrl)
      = Auth.RedirectAway "/dashboard").
Proof.
  unfold Auth.authorized, Auth.spec_decision_table.
  destruct (JS.startsWith (Auth.pathname nextUrl) "/dashboard") eqn:Hp;
    destruct (Auth.isLoggedIn auth) eqn:Hs;
    destruct (isPublic (Auth.pathname nextUrl)) eqn:Hq;
    simpl; split; try reflexivity; try discriminate;
    intros [H|[H|H]]; discriminate.
Qed.

Lemma authorized_decision_table_witness :
  Auth.decision
    (Auth.authorized None (Sample.url "/dashboard"))
  = Auth.DenyRedirect "/login"
  /\ Auth.decision
       (Auth.authorized Sample.session
          (Sample.url "/login"))
     = Auth.RedirectAway "/dashboard".
Proof.
  split.
  - rewrite (proj1 (authorized_decision_table Auth.is_public_page None
                      (Sample.url "/dashboard"))).
    + reflexivity.
    + left. reflexivity.
  - apply (proj2 (authorized_decision_table Auth.is_public_page Sample.session
                    (Sample.url "/login")));
      reflexivity.
Defined.

(** C10: the protected-path test of [authorized] is plain prefix
    matching on the text "/dashboard".  Every path of the form
    "/dashboard" ++ rest (for instance "/dashboard-other") is admitted
    with a session and refused without one, and every path not of that
    form sends a signed-in request to "/dashboard". *)
Theorem authorized_prefix_matching
  (auth : option Auth.Session) (nextUrl : Auth.URL) :
  ((exists rest, Auth.pathname nextUrl = "/dashboard" ++ rest) ->
   Auth.authorized auth nextUrl
   = if Auth.isLoggedIn auth then Auth.ReturnTrue else Auth.ReturnFalse)
  /\ ((forall rest, Auth.pathname nextUrl <> "/dashboard" ++ rest) ->
      Auth.isLoggedIn auth = true ->
      Auth.authorized auth nextUrl
      = Auth.ReturnRedirect (Auth.mkURL (Auth.origin nextUrl) "/dashboard")).
Proof.
  split.
  - intros H. apply startsWith_iff in H.
    unfold Auth.authorized. now rewrite H.
  - intros H Hs. apply startsWith_false_iff in H.
    unfold Auth.authorized. now rewrite H, Hs.
Qed.

Lemma authorized_prefix_matching_witness :
  Auth.authorized None
    (Sample.url "/dashboard-other")
  = Auth.ReturnFalse
  /\ Auth.authorized Sample.session
       (Sample.url "/dashboard-other")
     = Auth.ReturnTrue
  /\ Auth.authorized Sample.session
       (Sample.url "/customers")
     = Auth.ReturnRedirect (Sample.url "/dashboard").
Proof.
  split; [|split].
  - apply (proj1 (authorized_prefix_matching None
                    (Sample.url "/dashboard-other"))).
    exists "-other". reflexivity.
  - apply (proj1 (authorized_prefix_matching Sample.session
                    (Sample.url "/dashboard-other"))).
    exists "-other". reflexivity.
  - apply (proj2 (authorized_prefix_matching Sample.session
                    (Sample.url "/customers"))).
    + intros rest H. discriminate H.
    + reflexivity.
Defined.

(** ** The date of a new invoice *)

Lemma lacks_append (c : ascii) (a b : string) :
  lacks c a -> lacks c b -> lacks c (a ++ b).
Proof.
  induction a as [|x a IH]; simpl; [tauto|].
  intros [Hx Ha] Hb; split; auto.
Qed.

Lemma split_append (sep : ascii) (a b : string) :
  lacks sep a ->
  JS.split sep (a ++ String sep b) = a :: JS.split sep b.
Proof.
  induction a as [|x a IH]; simpl.
  - intros _. now rewrite Ascii.eqb_refl.
  - intros [Hx Ha]. rewrite (IH Ha).
    destruct (Ascii.eqb x sep) eqn:E; [|reflexivity].
    apply Ascii.eqb_eq in E. contradiction.
Qed.

Lemma decimal_digit_not_T (d : Z) : JS.decimal_digit d <> "T"%char.
Proof.
  unfold JS.decimal_digit.
  assert (H : 0 <= d mod 10 < 10) by (apply Z.mod_pos_bound; lia).
  assert (E : d mod 10 = 0 \/ d mod 10 = 1 \/ d mod 10 = 2 \/ d mod 10 = 3
              \/ d mod 10 = 4 \/ d mod 10 = 5 \/ d mod 10 = 6
              \/ d mod 10 = 7 \/ d mod 10 = 8 \/ d mod 10 = 9) by lia.
  repeat (destruct E as [E|E]; [rewrite E; discriminate|]).
  rewrite E; discriminate.
Qed.

Lemma padded_lacks_T (width : nat) (n : Z) : lacks "T" (JS.padded width n).
Proof.
  revert n; induction width as [|w IH]; intros n; simpl; [exact I|].
  apply lacks_append; [apply IH|].
  simpl. split; [apply decimal_digit_not_T | exact I].
Qed.

Lemma iso_year_lacks_T (y : Z) : lacks "T" (JS.iso_year y).
Proof.
  unfold JS.iso_year.
  destruct ((0 <=? y)%Z && (y <=? 9999)%Z); [apply padded_lacks_T|].
  apply lacks_append; [|apply padded_lacks_T].
  destruct (y <? 0)%Z; simpl; split; solve [discriminate | exact I].
Qed.

Lemma iso_date_lacks_T (d : JS.Date) : lacks "T" (JS.iso_date d).
Proof.
  unfold JS.iso_date.
  assert (Hdash : lacks "T" "-") by (simpl; split; [discriminate | exact I]).
  apply lacks_append; [apply iso_year_lacks_T|].
  apply (lacks_append "T" "-"); [exact Hdash|].
  apply lacks_append; [apply padded_lacks_T|].
  apply (lacks_append "T" "-"); [exact Hdash | apply padded_lacks_T].
Qed.

(** [new Date().toISOString().split('T')[0]] is the UTC calendar date
    of the clock, year-month-day. *)
Lemma today_is_iso_date (d : JS.Date) : Actions.today d = JS.iso_date d.
Proof.
  unfold Actions.today, JS.toISOString.
  change (JS.iso_date d ++ "T" ++ JS.iso_time d)
    with (JS.iso_date d ++ String "T" (JS.iso_time d)).
  now rewrite (split_append "T" _ _ (iso_date_lacks_T d)).
Qed.

(** ** Runs of the server actions *)

Lemma sql_fails (w : World) (s : Store.Statement) :
  store_fails w s -> sql s w = (Threw (DatabaseError s), w).
Proof.
  unfold store_fails, sql. intros [H|H].
  - now rewrite H.
  - rewrite H. now destruct (rejects w s).
Qed.



Lemma createInvoice_store_failure (formData : Zod.FormData)
  (input : Zod.InvoiceInput) (w : World) :
  Zod.CreateInvoice (Actions.rawFormData formData) = Zod.Success input ->
  store_fails w (insert_of input w) ->
  Actions.createInvoice formData w
  = (Threw (DatabaseError (insert_of input w)), w).
Proof.
  intros Hp Hf. unfold Actions.createInvoice, bind. rewrite Hp. simpl.
  fold (insert_of input w). now rewrite (sql_fails _ _ Hf).
Qed.

Lemma updateInvoice_store_failure (id : string) (formData : Zod.FormData)
  (input : Zod.InvoiceInput) (w : World) :
  Zod.UpdateInvoice (Actions.rawFormData formData) = Zod.Success input ->
  store_fails w (update_of id input) ->
  Actions.updateInvoice id formData w
  = (Threw (DatabaseError (update_of id input)), w).
Proof.
  intros Hp Hf. unfold Actions.updateInvoice, bind. rewrite Hp. simpl.
  fold (update_of id input). now rewrite (sql_fails _ _ Hf).
Qed.

(** A successful run of [createInvoice]: one row appended, the invoice
    list invalidated, the caller redirected. *)
Lemma createInvoice_success (formData : Zod.FormData)
  (input : Zod.InvoiceInput) (cents : Z) (w : World) :
  Zod.CreateInvoice (Actions.rawFormData formData) = Zod.Success input ->
  Store.int4_of_number (Zod.amount input * 100)%float = Some cents ->
  rejects w (insert_of input w) = false ->
  Actions.createInvoice formData w
  = (Redirected "/dashboard/invoices",
     mkWorld
       (Store.mkTables
          (Store.customers (tables w))
          (Store.invoices (tables w)
             ++ [Store.mkInvoice
                   (Store.uuid_of (tables w) (Store.uuid_next (tables w)))
                   (Zod.customerId input) cents (Zod.status input)
                   (JS.iso_date (now w))])
          (Store.uuid_of (tables w)) (S (Store.uuid_next (tables w))))
       (rejects w) (now w)
       (revalidated w ++ ["/dashboard/invoices"]) (console w)).
Proof.
  intros Hp Hc Hr. unfold Actions.createInvoice, bind. rewrite Hp. simpl.
  unfold sql. fold (insert_of input w). rewrite Hr.
  unfold insert_of. simpl. rewrite Hc. simpl.
  now rewrite today_is_iso_date.
Qed.

(** ** Validation of the amount *)


Lemma schema_accepts_number (raw : Zod.RawFormData) (c s : string) :
  PrimFloat.is_nan (Zod.Number (Zod.raw_amount raw)) = false ->
  Zod.raw_customerId raw = Some (Zod.EntryString c) ->
  Zod.raw_status raw = Some (Zod.EntryString s) ->
  s = "pending" \/ s = "paid" ->
  Zod.FormSchema_omit_id_date raw
  = Zod.Success (Zod.mkInput c (Zod.Number (Zod.raw_amount raw)) s).
Proof.
  intros Hnum Hc Hs Hin.
  unfold Zod.FormSchema_omit_id_date, Zod.z_coerce_number.
  rewrite Hnum, Hc, Hs. simpl.
  destruct Hin as [->| ->]; reflexivity.
Qed.




(** ** The amount and date that [createInvoice] persists *)




(** ** A failed write ends the pipeline *)

(** C6: in each of the three mutations, when the store fails on the
    write, the call ends with the store's exception before
    [revalidatePath] and [redirect] are reached: no path is
    invalidated, nothing is written and no redirect is issued. *)
Theorem failed_write_aborts_pipeline
  (id : string) (formData : Zod.FormData) (w : World) :
  (forall input,
      Zod.CreateInvoice (Actions.rawFormData formData) = Zod.Success input ->
      store_fails w (insert_of input w) ->
      Actions.createInvoice formData w
      = (Threw (DatabaseError (insert_of input w)), w)
      /\ aborted w (Actions.createInvoice formData w))
  /\ (forall input,
      Zod.UpdateInvoice (Actions.rawFormData formData) = Zod.Success input ->
      store_fails w (update_of id input) ->
      Actions.updateInvoice id formData w
      = (Threw (DatabaseError (update_of id input)), w)
      /\ aborted w (Actions.updateInvoice id formData w))
  /\ (store_fails w (Store.Delete_invoice id) ->
      Actions.deleteInvoice id w
      = (Threw (DatabaseError (Store.Delete_invoice id)), w)
      /\ aborted w (Actions.deleteInvoice id w)).
Proof.
  assert (Habort : forall (r : Completion unit * World) e,
             r = (Threw e, w) -> r = (Threw e, w) /\ aborted w r).
  { intros r e ->. split; [reflexivity|].
    unfold aborted; simpl; eauto. }
  split; [|split].
  - intros input Hp Hf. apply Habort.
    now apply createInvoice_store_failure.
  - intros input Hp Hf. apply Habort.
    now apply updateInvoice_store_failure.
  - intros Hf. apply Habort.
    unfold Actions.deleteInvoice, bind. now rewrite (sql_fails _ _ Hf).
Qed.

Lemma failed_write_aborts_pipeline_witness :
  aborted Sample.broken_world
    (Actions.createInvoice (Sample.form Sample.delba "45.00" "paid")
       Sample.broken_world)
  /\ aborted Sample.world
       (Actions.updateInvoice Sample.invoice_1
          (Sample.form Sample.delba "0.125" "paid") Sample.world)
  /\ aborted Sample.broken_world
       (Actions.deleteInvoice Sample.invoice_1 Sample.broken_world).
Proof.
  split; [|split].
  - apply (proj1 (failed_write_aborts_pipeline
                    Sample.invoice_1 (Sample.form Sample.delba "45.00" "paid")
                    Sample.broken_world)
             (Zod.mkInput Sample.delba 45%float "paid")).
    + vm_compute. reflexivity.
    + left. reflexivity.
  - apply (proj1 (proj2 (failed_write_aborts_pipeline
                           Sample.invoice_1
                           (Sample.form Sample.delba "0.125" "paid")
                           Sample.world))
             (Zod.mkInput Sample.delba 0.125%float "paid")).
    + vm_compute. reflexivity.
    + right. vm_compute. reflexivity.
  - apply (proj2 (proj2 (failed_write_aborts_pipeline
                           Sample.invoice_1
                           (Sample.form Sample.delba "45.00" "paid")
                           Sample.broken_world))).
    left. reflexivity.
Defined.

(** ** Reading one invoice back *)

Lemma world_eta (w : World) :
  mkWorld (tables w) (rejects w) (now w) (revalidated w) (console w) = w.
Proof. now destruct w. Qed.

Lemma fetchInvoiceById_answer (id : string) (w : World) :
  rejects w (Store.Select_invoice_by_id id) = false ->
  Data.fetchInvoiceById id w
  = (Returned
       (nth_error
          (map edit_form
             (filter (fun i => String.eqb (Store.i_id i) id)
                     (Store.invoices (tables w)))) 0),
     w).
Proof.
  intros Hr.
  unfold Data.fetchInvoiceById, noStore, try_catch, bind, ret, sql.
  rewrite Hr. simpl. rewrite world_eta, map_map. reflexivity.
Qed.

Lemma fetchInvoiceById_store_error (id : string) (w : World) :
  store_fails w (Store.Select_invoice_by_id id) ->
  Data.fetchInvoiceById id w
  = (Returned None,
     mkWorld (tables w) (rejects w) (now w) (revalidated w)
       (console w
          ++ [("Database Error:",
               DatabaseError (Store.Select_invoice_by_id id))])).
Proof.
  intros Hf.
  unfold Data.fetchInvoiceById, noStore, try_catch, bind, ret.
  now rewrite (sql_fails _ _ Hf).
Qed.

Lemma filter_absent {A : Type} (f : A -> bool) (l : list A) :
  (forall x, In x l -> f x = false) -> filter f l = [].
Proof.
  induction l as [|x l IH]; simpl; intros H; [reflexivity|].
  rewrite (H x (or_introl eq_refl)). apply IH.
  intros y Hy. apply H. now right.
Qed.

(** Absence is answered with [undefined], never with an exception. *)
Lemma fetchInvoiceById_absent (id : string) (w : World) :
  rejects w (Store.Select_invoice_by_id id) = false ->
  (forall i, In i (Store.invoices (tables w)) -> Store.i_id i <> id) ->
  Data.fetchInvoiceById id w = (Returned None, w).
Proof.
  intros Hr Habsent. rewrite (fetchInvoiceById_answer id w Hr).
  rewrite filter_absent; [reflexivity|].
  intros i Hi. apply String.eqb_neq. now apply Habsent.
Qed.

(** The first row with the id is answered with its amount in dollars. *)
Lemma fetchInvoiceById_found (id : string) (w : World)
  (before after : list Store.Invoice) (i : Store.Invoice) :
  rejects w (Store.Select_invoice_by_id id) = false ->
  Store.invoices (tables w) = (before ++ i :: after)%list ->
  (forall j, In j before -> Store.i_id j <> id) ->
  Store.i_id i = id ->
  Data.fetchInvoiceById id w = (Returned (Some (edit_form i)), w).
Proof.
  intros Hr Hrows Hbefore Hid. rewrite (fetchInvoiceById_answer id w Hr).
  rewrite Hrows, filter_app, (filter_absent _ before).
  - simpl. rewrite Hid, String.eqb_refl. reflexivity.
  - intros j Hj. apply String.eqb_neq. now apply Hbefore.
Qed.




(** C5: a closed run at the failing input.  When the store fails on the
    by-id query, [fetchInvoiceById] logs the error and returns
    [undefined], the very value it returns when no row has the id; an
    existing row is returned with its amount in dollars. *)
Lemma fetchInvoiceById_masks_store_error :
  fst (Data.fetchInvoiceById Sample.invoice_1 Sample.broken_world)
  = Returned None
  /\ console (snd (Data.fetchInvoiceById Sample.invoice_1
                     Sample.broken_world))
     = [("Database Error:",
         DatabaseError (Store.Select_invoice_by_id Sample.invoice_1))]
  /\ fst (Data.fetchInvoiceById "no-such-id" Sample.world) = Returned None
  /\ fst (Data.fetchInvoiceById Sample.invoice_2 Sample.world)
     = Returned
         (Some (Store.mkInvoiceForm Sample.invoice_2 Sample.lee 25%float
                  "pending")).
Proof. vm_compute. repeat split. Qed.

(** ** Pagination *)







(** [Number] reads back the integer whose text the store printed. *)
Lemma Number_text_of (z : Z) : Int.Number (Int.text_of z) = Some z.
Proof.
  unfold Int.Number, Int.text_of.
  pose proof (NilEmpty.isi (Z.to_int z)) as E.
  destruct (String.eqb (NilEmpty.string_of_int (Z.to_int z)) "-") eqn:Hm.
  - apply String.eqb_eq in Hm. rewrite Hm in E. simpl in E.
    injection E as E.
    pose proof (DecimalZ.of_to z) as R. rewrite <- E in R. simpl in R.
    subst z. discriminate E.
  - rewrite E. simpl. now rewrite DecimalZ.of_to.
Qed.




(** ** The summary cards *)

(** C9: [fetchCardData] never hands null to its caller.  Whenever the
    three aggregate queries succeed, the two counts are numbers and the
    two totals are [formatCurrency] applied to a text, which is the
    text "0" in place of a null sum; over an empty [invoices] table,
    where both sums are null, the invoice count is 0 and both totals
    are [formatCurrency "0"]. *)
Theorem fetchCardData_coalesces_null
  (formatCurrency : string -> string) (w : World) :
  (forall statement, rejects w statement = false) ->
  exists paid pending : string,
    Data.fetchCardData formatCurrency w
    = (Returned
         (Data.mkCardData
            (Some (Z.of_nat (length (Store.customers (tables w)))))
            (Some (Z.of_nat (length (Store.invoices (tables w)))))
            (formatCurrency paid) (formatCurrency pending)),
       w)
    /\ paid = nullish (Store.sum_where_status "paid"
                         (Store.invoices (tables w))) "0"
    /\ pending = nullish (Store.sum_where_status "pending"
                            (Store.invoices (tables w))) "0"
    /\ (Store.invoices (tables w) = [] ->
        Store.sum_where_status "paid" (Store.invoices (tables w))
        = Store.Null
        /\ Store.sum_where_status "pending" (Store.invoices (tables w))
           = Store.Null
        /\ paid = "0" /\ pending = "0").
Proof.
  intros Hok.
  exists (nullish (Store.sum_where_status "paid"
                     (Store.invoices (tables w))) "0"),
         (nullish (Store.sum_where_status "pending"
                     (Store.invoices (tables w))) "0").
  split; [|split; [reflexivity|split; [reflexivity|]]].
  - unfold Data.fetchCardData, noStore, try_catch, bind, ret, sql.
    rewrite (Hok Store.Count_invoices). simpl.
    rewrite (Hok Store.Count_customers). simpl.
    rewrite (Hok Store.Sum_invoices_by_status). simpl.
    rewrite !Number_text_of, world_eta. reflexivity.
  - intros Hempty. rewrite Hempty. simpl. repeat split.
Qed.

Lemma fetchCardData_coalesces_null_witness :
  exists paid pending : string,
    Data.fetchCardData Sample.usd Sample.empty_world
    = (Returned
         (Data.mkCardData (Some 0%Z) (Some 0%Z)
            (Sample.usd paid) (Sample.usd pending)),
       Sample.empty_world)
    /\ paid = nullish (Store.sum_where_status "paid" []) "0"
    /\ pending = nullish (Store.sum_where_status "pending" []) "0"
    /\ (@nil Store.Invoice = [] ->
        Store.sum_where_status "paid" [] = Store.Null
        /\ Store.sum_where_status "pending" [] = Store.Null
        /\ paid = "0" /\ pending = "0").
Proof.
  apply (fetchCardData_coalesces_null Sample.usd Sample.empty_world).
  intros statement. reflexivity.
Defined.

(** * Further properties of the data layer *)

(** ** The shape of a page of invoices *)












(** ** The pages cover the matching rows *)










(** ** What the reads never do *)

Ltac split_on_conditions :=
  repeat match goal with
         | |- context [if ?b then _ else _] => destruct b; simpl
         end.

(** X4: the four read functions never write: in every world, whether
    the store answers or fails, they leave the tables, the invalidated
    paths and the clock as they found them. *)
Theorem reads_are_read_only
  (formatCurrency : string -> string) (query id : string) (page : Z)
  (w : World) :
  read_only w (Data.fetchFilteredInvoices query page w)
  /\ read_only w (Data.fetchInvoicesPages query w)
  /\ read_only w (Data.fetchInvoiceById id w)
  /\ read_only w (Data.fetchCardData formatCurrency w).
Proof.
  unfold read_only.
  split; [|split; [|split]].
  - unfold Data.fetchFilteredInvoices, noStore, try_catch, bind, ret, sql,
      console_error, throw.
    simpl. split_on_conditions; auto.
  - unfold Data.fetchInvoicesPages, noStore, try_catch, bind, ret, sql,
      console_error, throw.
    simpl. split_on_conditions; auto.
  - unfold Data.fetchInvoiceById, noStore, try_catch, bind, ret, sql,
      console_error, throw.
    simpl. split_on_conditions; auto.
  - unfold Data.fetchCardData, noStore, try_catch, bind, ret, sql,
      console_error, throw.
    simpl. split_on_conditions; auto.
Qed.

(** X5: [fetchCardData] is all or nothing.  When the store fails on any
    of its three queries the call returns no partial record: it throws
    the one error "Failed to card data." and logs the store's error
    once. *)
Theorem fetchCardData_all_or_nothing
  (formatCurrency : string -> string) (w : World) :
  rejects w Store.Count_invoices = true
  \/ rejects w Store.Count_customers = true
  \/ rejects w Store.Sum_invoices_by_status = true ->
  exists failed,
    In failed [Store.Count_invoices; Store.Count_customers;
               Store.Sum_invoices_by_status]
    /\ rejects w failed = true
    /\ Data.fetchCardData formatCurrency w
       = (Threw (Error "Failed to card data."),
          mkWorld (tables w) (rejects w) (now w) (revalidated w)
            (console w ++ [("Database Error:", DatabaseError failed)])).
Proof.
  intros H.
  unfold Data.fetchCardData, noStore, try_catch, bind, ret, sql,
    console_error, throw.
  simpl.
  destruct (rejects w Store.Count_invoices) eqn:E0; simpl.
  { exists Store.Count_invoices. simpl. auto. }
  destruct (rejects w Store.Count_customers) eqn:E1; simpl.
  { exists Store.Count_customers. simpl. auto. }
  destruct (rejects w Store.Sum_invoices_by_status) eqn:E2; simpl.
  { exists Store.Sum_invoices_by_status. simpl. auto. }
  destruct H as [H|[H|H]]; discriminate H.
Qed.

Lemma fetchCardData_all_or_nothing_witness :
  exists failed,
    In failed [Store.Count_invoices; Store.Count_customers;
               Store.Sum_invoices_by_status]
    /\ rejects Sample.broken_world failed = true
    /\ Data.fetchCardData Sample.usd Sample.broken_world
       = (Threw (Error "Failed to card data."),
          mkWorld (tables Sample.broken_world) (rejects Sample.broken_world)
            (now Sample.broken_world) (revalidated Sample.broken_world)
            (console Sample.broken_world
               ++ [("Database Error:", DatabaseError failed)])).
Proof.
  apply (fetchCardData_all_or_nothing Sample.usd Sample.broken_world).
  left. reflexivity.
Defined.

(** ** The empty query *)








(** ** What [updateInvoice] changes *)

Lemma updateInvoice_success (id : string) (formData : Zod.FormData)
  (input : Zod.InvoiceInput) (cents : Z) (w : World) :
  Zod.UpdateInvoice (Actions.rawFormData formData) = Zod.Success input ->
  Store.int4_of_number (Zod.amount input * 100)%float = Some cents ->
  rejects w (update_of id input) = false ->
  Actions.updateInvoice id formData w
  = (Redirected "/dashboard/invoices",
     mkWorld
       (Store.mkTables
          (Store.customers (tables w))
          (map (fun i =>
                  if String.eqb (Store.i_id i) id
                  then Store.mkInvoice (Store.i_id i) (Zod.customerId input)
                         cents (Zod.status input) (Store.i_date i)
                  else i)
               (Store.invoices (tables w)))
          (Store.uuid_of (tables w)) (Store.uuid_next (tables w)))
       (rejects w) (now w)
       (revalidated w ++ ["/dashboard/invoices"]) (console w)).
Proof.
  intros Hp Hc Hr. unfold Actions.updateInvoice, bind. rewrite Hp. simpl.
  unfold sql. fold (update_of id input). rewrite Hr.
  unfold update_of. simpl. rewrite Hc. reflexivity.
Qed.



(** X8: [updateInvoice] on an id that no row has is not an error: the
    invoices stay exactly as they were, and still the invoice list is
    invalidated and the caller is redirected. *)
Theorem updateInvoice_unknown_id
  (id : string) (formData : Zod.FormData) (input : Zod.InvoiceInput)
  (cents : Z) (w : World) :
  Zod.UpdateInvoice (Actions.rawFormData formData) = Zod.Success input ->
  Store.int4_of_number (Zod.amount input * 100)%float = Some cents ->
  (forall statement, rejects w statement = false) ->
  (forall i, In i (Store.invoices (tables w)) -> Store.i_id i <> id) ->
  exists w',
    Actions.updateInvoice id formData w
    = (Redirected "/dashboard/invoices", w')
    /\ Store.invoices (tables w') = Store.invoices (tables w)
    /\ revalidated w' = (revalidated w ++ ["/dashboard/invoices"])%list.
Proof.
  intros Hp Hc Hok Habsent. eexists. split.
  - apply (updateInvoice_success id formData input cents w Hp Hc (Hok _)).
  - simpl. split; [|reflexivity].
    rewrite <- (map_id (Store.invoices (tables w))) at 2.
    apply map_ext_in. intros i Hi.
    destruct (String.eqb (Store.i_id i) id) eqn:E; [|reflexivity].
    apply String.eqb_eq in E. now apply Habsent in Hi.
Qed.

Lemma updateInvoice_unknown_id_witness :
  exists w',
    Actions.updateInvoice Sample.new_invoice
      (Sample.form Sample.delba "30" "paid") Sample.world
    = (Redirected "/dashboard/invoices", w')
    /\ Store.invoices (tables w') = Store.invoices (tables Sample.world)
    /\ revalidated w'
       = (revalidated Sample.world ++ ["/dashboard/invoices"])%list.
Proof.
  apply (updateInvoice_unknown_id Sample.new_invoice
           (Sample.form Sample.delba "30" "paid")
           (Zod.mkInput Sample.delba 30%float "paid") 3000 Sample.world);
    [vm_compute; reflexivity | vm_compute; reflexivity
    | intros statement; reflexivity | ].
  simpl. intros i [<-|[<-|[]]]; discriminate.
Defined.

(** ** Validation comes first and names every invalid field *)




(** X10: an amount that is left out or left blank is not refused: it
    coerces to 0, and with a customer and a status the form creates an
    invoice of 0 cents. *)
Theorem blank_amount_creates_zero_invoice
  (formData : Zod.FormData) (c s : string) (w : World) :
  Zod.get formData "amount" = None
  \/ Zod.get formData "amount" = Some (Zod.EntryString "") ->
  Zod.get formData "customerId" = Some (Zod.EntryString c) ->
  Zod.get formData "status" = Some (Zod.EntryString s) ->
  s = "pending" \/ s = "paid" ->
  (forall statement, rejects w statement = false) ->
  exists w',
    Actions.createInvoice formData w = (Redirected "/dashboard/invoices", w')
    /\ Store.invoices (tables w')
       = (Store.invoices (tables w)
          ++ [Store.mkInvoice
                (Store.uuid_of (tables w) (Store.uuid_next (tables w)))
                c 0 s (JS.iso_date (now w))])%list.
Proof.
  intros Hblank Hc Hs Hin Hok.
  assert (Hzero : Zod.Number (Zod.get formData "amount") = 0%float).
  { destruct Hblank as [-> | ->]; vm_compute; reflexivity. }
  assert (Hparse : Zod.CreateInvoice (Actions.rawFormData formData)
                   = Zod.Success (Zod.mkInput c 0%float s)).
  { rewrite <- Hzero. apply schema_accepts_number; try assumption.
    simpl. rewrite Hzero. reflexivity. }
  eexists. split.
  - apply (createInvoice_success formData _ 0 w Hparse);
      [vm_compute; reflexivity | apply Hok].
  - reflexivity.
Qed.

Lemma blank_amount_creates_zero_invoice_witness :
  exists w',
    Actions.createInvoice
      [("customerId", Zod.EntryString Sample.lee);
       ("status", Zod.EntryString "pending")] Sample.world
    = (Redirected "/dashboard/invoices", w')
    /\ Store.invoices (tables w')
       = (Store.invoices (tables Sample.world)
          ++ [Store.mkInvoice
                (Store.uuid_of (tables Sample.world)
                   (Store.uuid_next (tables Sample.world)))
                Sample.lee 0 "pending"
                (JS.iso_date (now Sample.world))])%list.
Proof.
  apply (blank_amount_creates_zero_invoice
           [("customerId", Zod.EntryString Sample.lee);
            ("status", Zod.EntryString "pending")]
           Sample.lee "pending" Sample.world);
    [left; reflexivity | reflexivity | reflexivity | left; reflexivity
    | intros statement; reflexivity].
Defined.

(** ** The callback's answers settle *)

(** X11: following the answer of [authorized] never leads to a second
    redirect.  A redirect response is only given to a signed-in
    request and its target is admitted; a refusal is only given to a
    request without a session, and the sign-in page it is sent to is
    admitted. *)
Theorem authorized_answer_settles
  (auth : option Auth.Session) (nextUrl : Auth.URL) :
  match Auth.authorized auth nextUrl with
  | Auth.ReturnRedirect location =>
      Auth.isLoggedIn auth = true
      /\ Auth.authorized auth location = Auth.ReturnTrue
  | Auth.ReturnFalse =>
      Auth.isLoggedIn auth = false
      /\ Auth.authorized auth (Auth.new_URL Auth.signIn nextUrl)
         = Auth.ReturnTrue
  | Auth.ReturnTrue => True
  end.
Proof.
  unfold Auth.authorized.
  destruct (JS.startsWith (Auth.pathname nextUrl) "/dashboard");
    destruct (Auth.isLoggedIn auth) eqn:E; simpl; try rewrite E;
    auto.
Qed.

(** * The pages and the navigation *)

(** ** The invoices page *)



(** ** The search box *)

Lemma get_delete_same (params : InvoicesPage.URLSearchParams)
  (name : string) :
  InvoicesPage.get (InvoicesPage.delete params name) name = None.
Proof.
  induction params as [|[k v] params IH]; simpl; [reflexivity|].
  destruct (String.eqb k name) eqn:E; simpl; [exact IH|].
  now rewrite E.
Qed.

Lemma get_delete_other (params : InvoicesPage.URLSearchParams)
  (name other : string) :
  other <> name ->
  InvoicesPage.get (InvoicesPage.delete params name) other
  = InvoicesPage.get params other.
Proof.
  intros Hne. induction params as [|[k v] params IH]; simpl; [reflexivity|].
  destruct (String.eqb_spec k name) as [->|Hk]; simpl.
  - rewrite IH. destruct (String.eqb_spec name other); congruence.
  - now rewrite IH.
Qed.

Lemma get_set_same (params : InvoicesPage.URLSearchParams)
  (name value : string) :
  InvoicesPage.get (InvoicesPage.set params name value) name = Some value.
Proof.
  induction params as [|[k v] params IH]; simpl.
  - now rewrite String.eqb_refl.
  - destruct (String.eqb k name) eqn:E; simpl.
    + now rewrite String.eqb_refl.
    + now rewrite E.
Qed.

Lemma get_set_other (params : InvoicesPage.URLSearchParams)
  (name value other : string) :
  other <> name ->
  InvoicesPage.get (InvoicesPage.set params name value) other
  = InvoicesPage.get params other.
Proof.
  intros Hne. induction params as [|[k v] params IH]; simpl.
  - destruct (String.eqb_spec name other); congruence.
  - destruct (String.eqb_spec k name) as [->|Hk]; simpl.
    + destruct (String.eqb_spec name other); [congruence|].
      now apply get_delete_other.
    + now rewrite IH.
Qed.

(** X13: every search starts again at page 1.  The URL that
    [handleSearch] navigates to carries [page=1]; it carries the term
    as [query] when the term is not empty and no [query] at all when
    it is; every other parameter of the current URL is kept. *)
Theorem handleSearch_resets_page
  (searchParams : InvoicesPage.URLSearchParams) (pathname term : string) :
  exists params,
    InvoicesPage.handleSearch searchParams pathname term
    = pathname ++ "?" ++ InvoicesPage.toString params
    /\ InvoicesPage.get params "page" = Some "1"
    /\ InvoicesPage.get params "query"
       = (if String.eqb term "" then None else Some term)
    /\ forall name, name <> "page" -> name <> "query" ->
         InvoicesPage.get params name = InvoicesPage.get searchParams name.
Proof.
  unfold InvoicesPage.handleSearch.
  destruct (String.eqb term "") eqn:E; eexists;
    (split; [reflexivity|]); split; [| split | | split].
  - rewrite get_delete_other by discriminate. apply get_set_same.
  - apply get_delete_same.
  - intros name Hp Hq.
    rewrite get_delete_other by assumption. now apply get_set_other.
  - rewrite get_set_other by discriminate. apply get_set_same.
  - apply get_set_same.
  - intros name Hp Hq.
    rewrite get_set_other by assumption. now apply get_set_other.
Qed.

(** ** The side navigation *)

(** X14: the side navigation always shows its three links, and it
    highlights a link exactly when the current path is that link's
    target, letter for letter; hence at most one link is highlighted,
    and none on a path below a target such as
    "/dashboard/invoices/create". *)
Theorem NavLinks_highlights_exact_match (pathname : string) :
  map NavLinks.target (NavLinks.NavLinks pathname)
  = ["/dashboard"; "/dashboard/invoices"; "/dashboard/customers"]
  /\ (forall r, In r (NavLinks.NavLinks pathname) ->
        (NavLinks.highlighted r = true <-> NavLinks.target r = pathname))
  /\ (length (filter NavLinks.highlighted (NavLinks.NavLinks pathname))
      <= 1)%nat.
Proof.
  unfold NavLinks.NavLinks, NavLinks.links. simpl.
  split; [reflexivity|]. split.
  - intros r [<-|[<-|[<-|[]]]]; simpl; rewrite String.eqb_eq;
      split; congruence.
  - destruct (String.eqb pathname "/dashboard") eqn:E1;
      destruct (String.eqb pathname "/dashboard/invoices") eqn:E2;
      destruct (String.eqb pathname "/dashboard/customers") eqn:E3;
      simpl; try lia;
      repeat match goal with
             | H : String.eqb _ _ = true |- _ => apply String.eqb_eq in H
             end;
      congruence.
Qed.

(** ** The edit page *)

Lemma fetchCustomers_answer (w : World) :
  Customers.fetchCustomers None w
  = (Returned (Customers.select_customers (tables w)), w).
Proof. reflexivity. Qed.

Lemma fetchCustomers_failure (message : string) (w : World) :
  Customers.fetchCustomers (Some message) w
  = (Threw (Error "Failed to fetch all customers."),
     mkWorld (tables w) (rejects w) (now w) (revalidated w)
       (console w ++ [("Database Error:", Error message)])).
Proof. reflexivity. Qed.

(** X15: what the edit page of an invoice ends in.  A failing customer
    list ends it with "Failed to fetch all customers.", whatever the
    invoice lookup gave.  Otherwise the page ends in the not-found
    response both when no invoice has the id and when the store failed
    on the lookup; and when the invoice exists, the form receives it
    with its amount in dollars, together with the customer list. *)
Theorem edit_page_outcomes
  (customers_failure : option string) (id : string) (w : World) :
  (forall message, customers_failure = Some message ->
     fst (Customers.EditPage customers_failure id w)
     = Threw (Error "Failed to fetch all customers."))
  /\ (customers_failure = None ->
      store_fails w (Store.Select_invoice_by_id id) ->
      fst (Customers.EditPage customers_failure id w)
      = Threw (Error "NEXT_NOT_FOUND"))
  /\ (customers_failure = None ->
      rejects w (Store.Select_invoice_by_id id) = false ->
      (forall i, In i (Store.invoices (tables w)) -> Store.i_id i <> id) ->
      fst (Customers.EditPage customers_failure id w)
      = Threw (Error "NEXT_NOT_FOUND"))
  /\ (forall before i after,
        customers_failure = None ->
        rejects w (Store.Select_invoice_by_id id) = false ->
        Store.invoices (tables w) = (before ++ i :: after)%list ->
        (forall j, In j before -> Store.i_id j <> id) ->
        Store.i_id i = id ->
        Customers.EditPage customers_failure id w
        = (Returned
             (Customers.mkEditView
                [Customers.mkBreadcrumb "Invoices" "/dashboard/invoices"
                   false;
                 Customers.mkBreadcrumb "Edit Invoice"
                   ("/dashboard/invoices/" ++ id ++ "/edit") true]
                (edit_form i)
                (Customers.select_customers (tables w))),
           w)).
Proof.
  split; [|split; [|split]].
  - intros message ->. unfold Customers.EditPage, bind.
    destruct (Data.fetchInvoiceById id w) as [[invoice|e|t] w1] eqn:E.
    + now rewrite fetchCustomers_failure.
    + exfalso. revert E.
      unfold Data.fetchInvoiceById, noStore, try_catch, bind, ret, sql,
        console_error.
      simpl. split_on_conditions; discriminate.
    + exfalso. revert E.
      unfold Data.fetchInvoiceById, noStore, try_catch, bind, ret, sql,
        console_error.
      simpl. split_on_conditions; discriminate.
  - intros -> Hfail. unfold Customers.EditPage, bind.
    rewrite (fetchInvoiceById_store_error id w Hfail).
    now rewrite fetchCustomers_answer.
  - intros -> Hr Habsent. unfold Customers.EditPage, bind.
    rewrite (fetchInvoiceById_absent id w Hr Habsent).
    now rewrite fetchCustomers_answer.
  - intros before i after -> Hr Hrows Hbefore Hid.
    unfold Customers.EditPage, bind.
    rewrite (fetchInvoiceById_found id w before after i Hr Hrows Hbefore Hid).
    now rewrite fetchCustomers_answer.
Qed.

Lemma edit_page_outcomes_witness :
  fst (Customers.EditPage (Some "connection lost") Sample.invoice_1
         Sample.world)
  = Threw (Error "Failed to fetch all customers.")
  /\ fst (Customers.EditPage None Sample.invoice_1 Sample.broken_world)
     = Threw (Error "NEXT_NOT_FOUND")
  /\ fst (Customers.EditPage None Sample.new_invoice Sample.world)
     = Threw (Error "NEXT_NOT_FOUND")
  /\ Customers.EditPage None Sample.invoice_2 Sample.world
     = (Returned
          (Customers.mkEditView
             [Customers.mkBreadcrumb "Invoices" "/dashboard/invoices" false;
              Customers.mkBreadcrumb "Edit Invoice"
                ("/dashboard/invoices/" ++ Sample.invoice_2 ++ "/edit") true]
             (edit_form (Store.mkInvoice Sample.invoice_2 Sample.lee 2500
                           "pending" "2024-02-01"))
             (Customers.select_customers (tables Sample.world))),
        Sample.world).
Proof.
  split; [|split; [|split]].
  - apply (proj1 (edit_page_outcomes (Some "connection lost")
                    Sample.invoice_1 Sample.world) "connection lost").
    reflexivity.
  - apply (proj1 (proj2 (edit_page_outcomes None Sample.invoice_1
                           Sample.broken_world)));
      [reflexivity | left; reflexivity].
  - apply (proj1 (proj2 (proj2 (edit_page_outcomes None Sample.new_invoice
                                  Sample.world))));
      [reflexivity | reflexivity |].
    simpl. intros i [<-|[<-|[]]]; discriminate.
  - apply (proj2 (proj2 (proj2 (edit_page_outcomes None Sample.invoice_2
                                  Sample.world)))
             [Store.mkInvoice Sample.invoice_1 Sample.delba 1999 "paid"
                              "2024-01-05"]
             (Store.mkInvoice Sample.invoice_2 Sample.lee 2500 "pending"
                              "2024-02-01")
             []);
      try reflexivity.
    simpl. intros j [<-|[]]. discriminate.
Defined.

(** * Writes seen through the reads *)




Lemma filter_updated (id customer status : string) (cents : Z)
  (rows : list Store.Invoice) :
  filter (fun i => String.eqb (Store.i_id i) id)
    (map (fun i =>
            if String.eqb (Store.i_id i) id
            then Store.mkInvoice (Store.i_id i) customer cents status
                   (Store.i_date i)
            else i)
         rows)
  = map (fun i =>
           Store.mkInvoice (Store.i_id i) customer cents status
             (Store.i_date i))
        (filter (fun i => String.eqb (Store.i_id i) id) rows).
Proof.
  induction rows as [|i rows IH]; simpl; [reflexivity|].
  destruct (String.eqb (Store.i_id i) id) eqn:E; simpl; rewrite E; simpl;
    now rewrite IH.
Qed.

(** X17: an update is read back.  After [updateInvoice] has redirected
    for the id of an existing invoice, [fetchInvoiceById] on that id
    returns the new customer and status and the new amount in dollars,
    that is the written cents divided by 100. *)
Theorem updateInvoice_then_fetchInvoiceById
  (id : string) (formData : Zod.FormData) (input : Zod.InvoiceInput)
  (cents : Z) (w : World) :
  Zod.UpdateInvoice (Actions.rawFormData formData) = Zod.Success input ->
  Store.int4_of_number (Zod.amount input * 100)%float = Some cents ->
  (forall statement, rejects w statement = false) ->
  (exists i, In i (Store.invoices (tables w)) /\ Store.i_id i = id) ->
  fst (Actions.updateInvoice id formData w)
  = Redirected "/dashboard/invoices"
  /\ fst (Data.fetchInvoiceById id
            (snd (Actions.updateInvoice id formData w)))
     = Returned
         (Some (Store.mkInvoiceForm id (Zod.customerId input)
                  (Store.number_of_int4 cents / 100)%float
                  (Zod.status input))).
Proof.
  intros Hp Hc Hok [i [Hi Hid]].
  rewrite (updateInvoice_success id formData input cents w Hp Hc (Hok _)).
  simpl. split; [reflexivity|].
  rewrite fetchInvoiceById_answer by (simpl; apply Hok). simpl.
  rewrite filter_updated.
  destruct (filter (fun i0 => String.eqb (Store.i_id i0) id)
              (Store.invoices (tables w))) as [|j rest] eqn:E.
  - exfalso.
    assert (Hj : In i (filter (fun i0 => String.eqb (Store.i_id i0) id)
                         (Store.invoices (tables w)))).
    { apply filter_In. split; [exact Hi|]. now apply String.eqb_eq. }
    rewrite E in Hj. exact Hj.
  - assert (Hj : In j (filter (fun i0 => String.eqb (Store.i_id i0) id)
                         (Store.invoices (tables w))))
      by (rewrite E; now left).
    apply filter_In in Hj. destruct Hj as [_ Hj].
    apply String.eqb_eq in Hj. simpl. unfold edit_form. simpl.
    now rewrite Hj.
Qed.

Lemma updateInvoice_then_fetchInvoiceById_witness :
  fst (Actions.updateInvoice Sample.invoice_1
         (Sample.form Sample.lee "30" "pending") Sample.world)
  = Redirected "/dashboard/invoices"
  /\ fst (Data.fetchInvoiceById Sample.invoice_1
            (snd (Actions.updateInvoice Sample.invoice_1
                    (Sample.form Sample.lee "30" "pending") Sample.world)))
     = Returned
         (Some (Store.mkInvoiceForm Sample.invoice_1 Sample.lee
                  (Store.number_of_int4 3000 / 100)%float "pending")).
Proof.
  apply (updateInvoice_then_fetchInvoiceById Sample.invoice_1
           (Sample.form Sample.lee "30" "pending")
           (Zod.mkInput Sample.lee 30%float "pending") 3000 Sample.world);
    [vm_compute; reflexivity | vm_compute; reflexivity
    | intros statement; reflexivity | ].
  eexists. split; [left; reflexivity | reflexivity].
Defined.

(** ** Searching finds the rows that contain the query *)








(** * How the calls can end *)

(** X19: [createInvoice] and [updateInvoice] end in one of three ways
    and never return to the caller: a validation error or a store
    error, both leaving the world as it was, or a redirect to the
    invoice list after exactly one invalidation of that list.  So no
    path is invalidated without a successful write, and no write goes
    without the redirect. *)
Theorem mutation_outcomes (id : string) (formData : Zod.FormData) (w : World) :
  let ends (r : Completion unit * World) :=
    (exists issues, r = (Threw (ZodError issues), w))
    \/ (exists statement, r = (Threw (DatabaseError statement), w))
    \/ (fst r = Redirected "/dashboard/invoices"
        /\ revalidated (snd r)
           = (revalidated w ++ ["/dashboard/invoices"])%list
        /\ Store.customers (tables (snd r)) = Store.customers (tables w)) in
  ends (Actions.createInvoice formData w)
  /\ ends (Actions.updateInvoice id formData w).
Proof.
  intros ends. subst ends. split.
  - unfold Actions.createInvoice, bind, Actions.parse, Zod.CreateInvoice.
    destruct (Zod.FormSchema_omit_id_date (Actions.rawFormData formData))
      as [input|issues]; simpl; [|left; eauto].
    unfold sql, throw, ret.
    destruct (rejects w _); [right; left; eauto|].
    simpl. destruct (Store.int4_of_number _); simpl;
      [right; right; auto | right; left; eauto].
  - unfold Actions.updateInvoice, bind, Actions.parse, Zod.UpdateInvoice.
    destruct (Zod.FormSchema_omit_id_date (Actions.rawFormData formData))
      as [input|issues]; simpl; [|left; eauto].
    unfold sql, throw, ret.
    destruct (rejects w _); [right; left; eauto|].
    simpl. destruct (Store.int4_of_number _); simpl;
      [right; right; auto | right; left; eauto].
Qed.

(** X20: [fetchInvoiceById] never throws, whatever the store does: it
    always returns, and what it returns is either [undefined] or the
    edit form of a stored invoice with the requested id. *)
Theorem fetchInvoiceById_always_returns (id : string) (w : World) :
  exists result w',
    Data.fetchInvoiceById id w = (Returned result, w')
    /\ forall form, result = Some form ->
         Store.if_id form = id
         /\ exists i, In i (Store.invoices (tables w)) /\ form = edit_form i.
Proof.
  destruct (rejects w (Store.Select_invoice_by_id id)) eqn:Hr.
  - eexists. eexists. split.
    + apply fetchInvoiceById_store_error. now left.
    + intros form H. discriminate H.
  - eexists. eexists. split.
    + now apply fetchInvoiceById_answer.
    + intros form H.
      destruct (filter (fun i => String.eqb (Store.i_id i) id)
                  (Store.invoices (tables w))) as [|j rest] eqn:E;
        simpl in H; [discriminate H|].
      injection H as <-.
      assert (Hj : In j (filter (fun i => String.eqb (Store.i_id i) id)
                           (Store.invoices (tables w))))
        by (rewrite E; now left).
      apply filter_In in Hj. destruct Hj as [Hin Hid].
      apply String.eqb_eq in Hid. split; [exact Hid | eauto].
Qed.
